(** * Session client and dashboard of the B2B mobile app

    A shallow embedding of [frontend/contexts/AuthContext.tsx] (the
    [AuthProvider] with [loadStoredAuth], [login], [register], [logout], and
    the [useAuth] hook) and of the dashboard screen ([DashboardScreen] with
    [fetchStats], its token effect, [onRefresh] and the statistics grid).

    The asynchronous functions are written in a state-and-exception monad over
    a [World]: the secure store of the device, the React state cells, the
    scripted behaviour of the two collaborators the code awaits (the secure
    store may throw, the backend answers or rejects), and the chronological
    trace of the effects the code performed.  Each [await] is one bind; an
    operation runs to completion before the next one starts. *)

From stdpp Require Import base option strings list gmap.

Open Scope string_scope.

(** ** Data of the source *)

(** [interface User]. *)
Record User := mkUser {
  id : string;
  email : string;
  mobile : string;
  name : string;
  role : string;
  company_id : option string;
  company_name : option string
}.

(** [interface RegisterData]. *)
Record RegisterData := mkRegisterData {
  reg_email : string;
  reg_mobile : string;
  reg_password : string;
  reg_name : string;
  reg_role : string;
  reg_company_name : option string
}.

(** [interface Stats]: the eight numbers of the dashboard snapshot.  The code
    never computes on them; they are carried as integers. *)
Record Stats := mkStats {
  total_orders : Z;
  pending_orders : Z;
  completed_orders : Z;
  total_products : Z;
  low_stock_products : Z;
  total_vendors : Z;
  pending_payments : Z;
  total_revenue : Z
}.

(** A thrown JavaScript value as the [catch] blocks inspect it:
    [error.response?.data?.detail].  Every link of the chain may be missing. *)
Record ErrData := mkErrData { detail : option string }.
Record ErrResponse := mkErrResponse { data : option ErrData }.
Record JsError := mkJsError {
  message : string;
  response : option ErrResponse
}.

(** [new Error(msg)]: an error object with that message and no [response]. *)
Definition new_Error (msg : string) : JsError :=
  {| message := msg; response := None |}.

(** What the platform functions need from outside the repository: the backend
    address of the build and the JSON codec of the JavaScript runtime
    ([JSON_parse] answers [None] where [JSON.parse] throws). *)
Record Platform := mkPlatform {
  EXPO_PUBLIC_BACKEND_URL : string;
  JSON_stringify : User -> string;
  JSON_parse : string -> option User
}.

(** The body of a POST request. *)
Inductive PostBody :=
| LoginBody (login password : string)
| RegisterBody (d : RegisterData).

(** What the backend does with a POST to an auth route: it resolves with
    [response.data = { access_token, user }] or the promise rejects. *)
Inductive AuthReply :=
| AuthResolved (access_token : string) (userData : User)
| AuthRejected (e : JsError).

(** What the backend does with the GET of the statistics. *)
Inductive StatsReply :=
| StatsResolved (s : Stats)
| StatsRejected (e : JsError).

(** The effects of the client, in the order they happen. *)
Inductive Event :=
| HttpPost (url : string) (body : PostBody)
| HttpGet (url : string) (authorization : string)
| StoreSet (key value : string)
| StoreDelete (key : string)
| SetToken (v : option string)
| SetUser (v : option User)
| SetIsLoading (v : bool)
| ConsoleError (label : string) (e : JsError).

(** ** The world the code runs in *)

Record World := mkWorld {
  store : gmap string string;   (* expo-secure-store *)
  faults : list bool;           (* upcoming SecureStore calls: [true] throws *)
  posts : list AuthReply;       (* upcoming answers to axios.post *)
  gets : list StatsReply;       (* upcoming answers to axios.get *)
  user : option User;           (* useState<User | null>(null) *)
  token : option string;        (* useState<string | null>(null) *)
  isLoading : bool;             (* useState(true) *)
  stats : option Stats;         (* DashboardScreen: useState<Stats | null>(null) *)
  refreshing : bool;            (* DashboardScreen: useState(false) *)
  loading : bool;               (* DashboardScreen: useState(true) *)
  trace : list Event
}.

Definition with_store (s : gmap string string) (w : World) : World :=
  mkWorld s (faults w) (posts w) (gets w) (user w) (token w) (isLoading w)
          (stats w) (refreshing w) (loading w) (trace w).
Definition with_faults (f : list bool) (w : World) : World :=
  mkWorld (store w) f (posts w) (gets w) (user w) (token w) (isLoading w)
          (stats w) (refreshing w) (loading w) (trace w).
Definition with_posts (p : list AuthReply) (w : World) : World :=
  mkWorld (store w) (faults w) p (gets w) (user w) (token w) (isLoading w)
          (stats w) (refreshing w) (loading w) (trace w).
Definition with_gets (g : list StatsReply) (w : World) : World :=
  mkWorld (store w) (faults w) (posts w) g (user w) (token w) (isLoading w)
          (stats w) (refreshing w) (loading w) (trace w).
Definition with_user (u : option User) (w : World) : World :=
  mkWorld (store w) (faults w) (posts w) (gets w) u (token w) (isLoading w)
          (stats w) (refreshing w) (loading w) (trace w).
Definition with_token (t : option string) (w : World) : World :=
  mkWorld (store w) (faults w) (posts w) (gets w) (user w) t (isLoading w)
          (stats w) (refreshing w) (loading w) (trace w).
Definition with_isLoading (b : bool) (w : World) : World :=
  mkWorld (store w) (faults w) (posts w) (gets w) (user w) (token w) b
          (stats w) (refreshing w) (loading w) (trace w).
Definition with_stats (s : option Stats) (w : World) : World :=
  mkWorld (store w) (faults w) (posts w) (gets w) (user w) (token w) (isLoading w)
          s (refreshing w) (loading w) (trace w).
Definition with_refreshing (b : bool) (w : World) : World :=
  mkWorld (store w) (faults w) (posts w) (gets w) (user w) (token w) (isLoading w)
          (stats w) b (loading w) (trace w).
Definition with_loading (b : bool) (w : World) : World :=
  mkWorld (store w) (faults w) (posts w) (gets w) (user w) (token w) (isLoading w)
          (stats w) (refreshing w) b (trace w).
Definition emit (e : Event) (w : World) : World :=
  mkWorld (store w) (faults w) (posts w) (gets w) (user w) (token w) (isLoading w)
          (stats w) (refreshing w) (loading w) (trace w ++ [e]).

(** ** The monad of the asynchronous code *)

Inductive Outcome (A : Type) :=
| Return (a : A)
| Throw (e : JsError).
Arguments Return {A} a.
Arguments Throw {A} e.

Definition M (A : Type) : Type := World -> Outcome A * World.

#[export] Instance M_ret : MRet M := fun A a w => (Return a, w).
#[export] Instance M_bind : MBind M := fun A B f c w =>
  match c w with
  | (Return a, w') => f a w'
  | (Throw e, w') => (Throw e, w')
  end.

Definition throw {A} (e : JsError) : M A := fun w => (Throw e, w).

(** [try { body } catch (error) { handler }]. *)
Definition try_catch {A} (body : M A) (handler : JsError -> M A) : M A :=
  fun w =>
    match body w with
    | (Return a, w') => (Return a, w')
    | (Throw e, w') => handler e w'
    end.

(** [try { body } finally { fin }]: [fin] runs on both exits and the exit of
    [body] is kept, unless [fin] itself throws. *)
Definition try_finally {A} (body : M A) (fin : M unit) : M A :=
  fun w =>
    match body w with
    | (r, w') =>
        match fin w' with
        | (Return _, w'') => (r, w'')
        | (Throw e, w'') => (Throw e, w'')
        end
    end.

Definition act (f : World -> World) : M unit := fun w => (Return tt, f w).

(** ** JavaScript operators the source uses *)

(** Truthiness of a [string | null] (or [string | undefined]) value: the empty
    string is falsy. *)
Definition truthy (v : option string) : bool :=
  match v with
  | Some s => negb (String.eqb s "")
  | None => false
  end.

(** [v || fallback] on such a value. *)
Definition js_or (v : option string) (fallback : string) : string :=
  match v with
  | Some s => if truthy v then s else fallback
  | None => fallback
  end.

(** [error.response?.data?.detail]. *)
Definition response_detail (e : JsError) : option string :=
  r ← response e; d ← data r; detail d.

(** A [string | null] inside a template literal. *)
Definition interpolate (v : option string) : string :=
  match v with
  | Some s => s
  | None => "null"
  end.

(** ** The collaborators *)

(** The error a failing SecureStore call rejects with: a plain error, without
    [response]. *)
Definition SecureStore_error : JsError := new_Error "SecureStore call failed".

(** The error of a request that got no answer at all. *)
Definition Network_error : JsError := new_Error "Network Error".

(** One SecureStore call consumes one entry of the fault script; an exhausted
    script means the call goes through. *)
Definition store_call {A} (ok : M A) : M A :=
  fun w =>
    match faults w with
    | true :: fs => (Throw SecureStore_error, with_faults fs w)
    | false :: fs => ok (with_faults fs w)
    | [] => ok w
    end.

Definition SecureStore_getItemAsync (key : string) : M (option string) :=
  store_call (fun w => (Return (store w !! key), w)).

Definition SecureStore_setItemAsync (key value : string) : M unit :=
  store_call (act (fun w => emit (StoreSet key value) (with_store (<[key := value]> (store w)) w))).

Definition SecureStore_deleteItemAsync (key : string) : M unit :=
  store_call (act (fun w => emit (StoreDelete key) (with_store (delete key (store w)) w))).

Definition axios_post (url : string) (body : PostBody) : M (string * User) :=
  fun w =>
    let w1 := emit (HttpPost url body) w in
    match posts w with
    | AuthResolved access_token userData :: rest =>
        (Return (access_token, userData), with_posts rest w1)
    | AuthRejected e :: rest => (Throw e, with_posts rest w1)
    | [] => (Throw Network_error, w1)
    end.

Definition axios_get (url : string) (authorization : string) : M Stats :=
  fun w =>
    let w1 := emit (HttpGet url authorization) w in
    match gets w with
    | StatsResolved s :: rest => (Return s, with_gets rest w1)
    | StatsRejected e :: rest => (Throw e, with_gets rest w1)
    | [] => (Throw Network_error, w1)
    end.

Definition console_error (label : string) (e : JsError) : M unit :=
  act (emit (ConsoleError label e)).

(** The React state setters. *)
Definition setToken (v : option string) : M unit :=
  act (fun w => emit (SetToken v) (with_token v w)).
Definition setUser (v : option User) : M unit :=
  act (fun w => emit (SetUser v) (with_user v w)).
Definition setIsLoading (v : bool) : M unit :=
  act (fun w => emit (SetIsLoading v) (with_isLoading v w)).
Definition setStats (v : option Stats) : M unit := act (with_stats v).
Definition setRefreshing (v : bool) : M unit := act (with_refreshing v).
Definition setLoading (v : bool) : M unit := act (with_loading v).

(** ** [AuthContext.tsx]: the provider *)

Section AuthProvider.

Variable P : Platform.

(** [const API_URL = `${EXPO_PUBLIC_BACKEND_URL}/api`]. *)
Definition API_URL : string := EXPO_PUBLIC_BACKEND_URL P ++ "/api".

(** [JSON.parse(s)] as a step of the monad: a syntax error is thrown. *)
Definition parse_user (s : string) : M User :=
  match JSON_parse P s with
  | Some u => mret u
  | None => throw (new_Error "JSON Parse error")
  end.

Definition loadStoredAuth : M unit :=
  try_finally
    (try_catch
       (storedToken ← SecureStore_getItemAsync "auth_token";
        storedUser ← SecureStore_getItemAsync "user_data";
        if truthy storedToken && truthy storedUser then
          setToken storedToken;;
          u ← parse_user (default "" storedUser);
          setUser (Some u)
        else mret tt)
       (fun error => console_error "Error loading auth:" error))
    (setIsLoading false).

Definition login (login password : string) : M unit :=
  try_catch
    ('(access_token, userData) ← axios_post (API_URL ++ "/auth/login") (LoginBody login password);
     SecureStore_setItemAsync "auth_token" access_token;;
     SecureStore_setItemAsync "user_data" (JSON_stringify P userData);;
     setToken (Some access_token);;
     setUser (Some userData))
    (fun error => throw (new_Error (js_or (response_detail error) "Login failed"))).

Definition register (d : RegisterData) : M unit :=
  try_catch
    ('(access_token, userData) ← axios_post (API_URL ++ "/auth/register") (RegisterBody d);
     SecureStore_setItemAsync "auth_token" access_token;;
     SecureStore_setItemAsync "user_data" (JSON_stringify P userData);;
     setToken (Some access_token);;
     setUser (Some userData))
    (fun error => throw (new_Error (js_or (response_detail error) "Registration failed"))).

Definition logout : M unit :=
  try_catch
    (SecureStore_deleteItemAsync "auth_token";;
     SecureStore_deleteItemAsync "user_data";;
     setToken None;;
     setUser None)
    (fun error => console_error "Error logging out:" error).

(** The value [AuthProvider] hands to [AuthContext.Provider]. *)
Record AuthContextType := mkAuthContextType {
  ctx_user : option User;
  ctx_token : option string;
  ctx_login : string -> string -> M unit;
  ctx_register : RegisterData -> M unit;
  ctx_logout : M unit;
  ctx_isLoading : bool
}.

Definition AuthProvider_value (w : World) : AuthContextType :=
  {| ctx_user := user w; ctx_token := token w; ctx_login := login;
     ctx_register := register; ctx_logout := logout; ctx_isLoading := isLoading w |}.

(** [createContext<AuthContextType | undefined>(undefined)] and [useContext]:
    a component reads the value of the nearest provider above it, and the
    default where there is none.  [enclosing] lists the values of the
    [AuthProvider]s above the component, nearest first. *)
Definition AuthContext_default : option AuthContextType := None.

Definition useContext (enclosing : list AuthContextType) : option AuthContextType :=
  match enclosing with
  | v :: _ => Some v
  | [] => AuthContext_default
  end.

Definition useAuth (enclosing : list AuthContextType) : Outcome AuthContextType :=
  match useContext enclosing with
  | None => Throw (new_Error "useAuth must be used within an AuthProvider")
  | Some context => Return context
  end.

(** ** The dashboard screen *)

Definition fetchStats : M unit :=
  try_finally
    (try_catch
       (tok ← (fun w => (Return (token w), w));
        s ← axios_get (API_URL ++ "/dashboard/stats") ("Bearer " ++ interpolate tok);
        setStats (Some s))
       (fun error => console_error "Error fetching stats:" error))
    (setLoading false;; setRefreshing false).

(** [useEffect(() => { if (token) fetchStats(); }, [token])]: the body React
    runs after the first render and after each render in which the token
    differs from the previous one. *)
Definition tokenEffect : M unit :=
  fun w => if truthy (token w) then fetchStats w else (Return tt, w).

Definition onRefresh : M unit :=
  setRefreshing true;; fetchStats.

End AuthProvider.

(** ** The statistics grid of [DashboardScreen] *)

Inductive StatField :=
| f_total_orders | f_pending_orders | f_completed_orders | f_total_products
| f_low_stock_products | f_total_vendors | f_pending_payments | f_total_revenue.

(** The [value] a card is given: [stats?.f || 0], or the dollar amount
    [`$${stats?.f?.toFixed(2) || '0.00'}`]. *)
Inductive CardValue :=
| CountOrZero (f : StatField)
| DollarsFixed2 (f : StatField).

(** The props of a [StatCard]. *)
Record StatCard := mkStatCard {
  title : string;
  value : CardValue;
  icon : string;
  color : string
}.

(** [user?.role === r]. *)
Definition role_is (u : option User) (r : string) : bool :=
  match u with
  | Some u => String.eqb (role u) r
  | None => false
  end.

(** [{cond && (<>...</>)}]. *)
Definition shown_when {A} (cond : bool) (children : list A) : list A :=
  if cond then children else [].

Definition statsGrid (u : option User) : list StatCard :=
  shown_when (role_is u "Admin" || role_is u "Sales")
    [ mkStatCard "Total Orders" (CountOrZero f_total_orders) "cart-outline" "#007AFF";
      mkStatCard "Pending Orders" (CountOrZero f_pending_orders) "time-outline" "#FF9500";
      mkStatCard "Completed Orders" (CountOrZero f_completed_orders) "checkmark-circle-outline" "#34C759";
      mkStatCard "Total Products" (CountOrZero f_total_products) "cube-outline" "#5856D6" ]
  ++ shown_when (role_is u "Admin")
    [ mkStatCard "Low Stock Items" (CountOrZero f_low_stock_products) "alert-circle-outline" "#FF3B30";
      mkStatCard "Total Vendors" (CountOrZero f_total_vendors) "people-outline" "#AF52DE" ]
  ++ shown_when (role_is u "Admin" || role_is u "Sales" || role_is u "Buyer")
    [ mkStatCard "Pending Payments" (CountOrZero f_pending_payments) "wallet-outline" "#FF9500";
      mkStatCard "Total Revenue" (DollarsFixed2 f_total_revenue) "trending-up-outline" "#34C759" ]
  ++ shown_when (role_is u "Buyer")
    [ mkStatCard "My Orders" (CountOrZero f_total_orders) "cart-outline" "#007AFF";
      mkStatCard "Pending Orders" (CountOrZero f_pending_orders) "time-outline" "#FF9500" ].

(** What the screen returns: the spinner while [loading], else the scroll view
    with its refresh control and the grid (the user card, the company card and
    the quick actions carry no statistics and are left out). *)
Inductive View :=
| LoadingView
| DashboardView (cards : list StatCard).

Definition DashboardScreen_render (w : World) : View :=
  if loading w then LoadingView else DashboardView (statsGrid (user w)).

(** The statistics fields a view puts on screen. *)
Definition displayed_cards (v : View) : list StatCard :=
  match v with
  | LoadingView => []
  | DashboardView cards => cards
  end.

(** ** Runs of the client *)

(** A restart of the app: the React state is back at its initial values, the
    secure store is what outlives the process. *)
Definition restart (w : World) : World :=
  mkWorld (store w) (faults w) (posts w) (gets w) None None true None false true (trace w).

(** A fresh install, with the scripted collaborators. *)
Definition install (f : list bool) (p : list AuthReply) (g : list StatsReply) : World :=
  mkWorld ∅ f p g None None true None false true [].

Inductive Action :=
| Restore                         (* the startup effect of AuthProvider *)
| Login (l p : string)
| Register (d : RegisterData)
| Logout
| TokenEffect                     (* the dashboard effect after a token change *)
| PullToRefresh.                  (* the gesture on the refresh control *)

(** The refresh control exists only in the scroll view, so the gesture reaches
    [onRefresh] only when the screen is not showing the spinner. *)
Definition perform (P : Platform) (a : Action) : M unit :=
  match a with
  | Restore => loadStoredAuth P
  | Login l p => login P l p
  | Register d => register P d
  | Logout => logout
  | TokenEffect => tokenEffect P
  | PullToRefresh => fun w => if loading w then (Return tt, w) else onRefresh P w
  end.

Fixpoint run (P : Platform) (acts : list Action) (w : World) : World :=
  match acts with
  | [] => w
  | a :: rest => run P rest (snd (perform P a w))
  end.

(** ** Observations on traces and stores *)

Definition is_http (e : Event) : bool :=
  match e with
  | HttpPost _ _ | HttpGet _ _ => true
  | _ => false
  end.

(** The requests of a trace, in order. *)
Definition http (evs : list Event) : list Event := List.filter is_http evs.

(** The effects performed on the way from [w] to [w']. *)
Definition since (w w' : World) : list Event := drop (length (trace w)) (trace w').

(** Both entries or none. *)
Definition paired (s : gmap string string) : Prop :=
  is_Some (s !! "auth_token") <-> is_Some (s !! "user_data").

(** No SecureStore call among the next [n] throws. *)
Definition calm (n : nat) (w : World) : Prop := true ∉ take n (faults w).

(** No SecureStore call throws at all. *)
Definition quiet (w : World) : Prop := true ∉ faults w.

(** A sample platform and sample data for the examples. *)
Definition alice : User :=
  mkUser "u1" "alice@x.com" "5551234567" "Alice" "Admin" (Some "c1") (Some "Acme").
Definition bob : User :=
  mkUser "u2" "bob@x.com" "5557654321" "Bob" "Buyer" (Some "c1") (Some "Acme").

(** The double quote character. *)
Definition dq : string := String (Ascii.ascii_of_nat 34) EmptyString.

Definition quoted (s : string) : string := dq ++ s ++ dq.

(** A stand-in for [JSON.stringify] on records without characters to escape. *)
Definition sample_stringify (u : User) : string :=
  "{" ++ quoted "id" ++ ":" ++ quoted (id u) ++ ","
      ++ quoted "email" ++ ":" ++ quoted (email u) ++ ","
      ++ quoted "name" ++ ":" ++ quoted (name u) ++ ","
      ++ quoted "role" ++ ":" ++ quoted (role u) ++ "}".

(** A stand-in for [JSON.parse]: it knows the two sample records and throws on
    everything else. *)
Definition sample_parse (s : string) : option User :=
  if String.eqb s (sample_stringify alice) then Some alice
  else if String.eqb s (sample_stringify bob) then Some bob
  else None.

Definition sample_platform : Platform :=
  mkPlatform "https://backend.example" sample_stringify sample_parse.

(** ** Predicates of the statements and sample data *)

(** The five effects of a login or register call that goes through, in order. *)
Definition adopted_trace (P : Platform) (req : Event) (access_token : string) (userData : User)
  : list Event :=
  [ req;
    StoreSet "auth_token" access_token;
    StoreSet "user_data" (JSON_stringify P userData);
    SetToken (Some access_token);
    SetUser (Some userData) ].

(** What a call the backend answers with [access_token] and [userData] does
    from [w]: with both writes going through, the two entries are in the store
    and the state setters come after the writes; with a write that throws, the
    call throws and the session cells keep their values. *)
Definition persists_then_adopts (P : Platform) (op : M unit) (req : Event) (w : World)
    (access_token : string) (userData : User) : Prop :=
  (calm 2 w ->
     fst (op w) = Return tt /\
     store (snd (op w)) =
       <["user_data" := JSON_stringify P userData]> (<["auth_token" := access_token]> (store w)) /\
     token (snd (op w)) = Some access_token /\
     user (snd (op w)) = Some userData /\
     trace (snd (op w)) = (trace w ++ adopted_trace P req access_token userData)%list) /\
  (true ∈ take 2 (faults w) ->
     (exists e, fst (op w) = Throw e) /\
     token (snd (op w)) = token w /\
     user (snd (op w)) = user w /\
     (forall v, SetToken v ∉ since w (snd (op w))) /\
     (forall v, SetUser v ∉ since w (snd (op w)))).

(** The four effects of a logout whose deletions go through, in order. *)
Definition logout_trace : list Event :=
  [ StoreDelete "auth_token"; StoreDelete "user_data"; SetToken None; SetUser None ].

(** An entry that is absent or holds the empty string: what [if (v)] rejects. *)
Definition blank (v : option string) : Prop := v = None \/ v = Some "".

(** What one action may do to the store: nothing, write both entries, or
    delete both entries. *)
Definition store_step (s s' : gmap string string) : Prop :=
  s' = s \/
  (exists t r, s' = <["user_data" := r]> (<["auth_token" := t]> s)) \/
  s' = delete "user_data" (delete "auth_token" s).


Definition stats_request (P : Platform) (w : World) : Event :=
  HttpGet (API_URL P ++ "/dashboard/stats") ("Bearer " ++ interpolate (token w)).

(** The grid of a Buyer. *)
Definition buyer_grid : list StatCard :=
  [ mkStatCard "Pending Payments" (CountOrZero f_pending_payments) "wallet-outline" "#FF9500";
    mkStatCard "Total Revenue" (DollarsFixed2 f_total_revenue) "trending-up-outline" "#34C759";
    mkStatCard "My Orders" (CountOrZero f_total_orders) "cart-outline" "#007AFF";
    mkStatCard "Pending Orders" (CountOrZero f_pending_orders) "time-outline" "#FF9500" ].

Definition sample_registration : RegisterData :=
  mkRegisterData "bob@x.com" "5557654321" "secret2" "Bob" "Buyer" (Some "Acme").

(** A device on which Alice is logged in. *)
Definition logged_in (f : list bool) : World :=
  mkWorld (<["user_data" := sample_stringify alice]> (<["auth_token" := "tok-1"]> ∅))
          f [] [] (Some alice) (Some "tok-1") false None false true [].

(** The dashboard of Bob, a Buyer, once the statistics are loaded. *)
Definition buyer_dashboard : World :=
  mkWorld ∅ [] [] [] (Some bob) (Some "tok-2") false None false false [].

(** A device restarting with a stored pair whose token is the empty string. *)
Definition empty_token_device : World :=
  mkWorld (<["user_data" := sample_stringify alice]> (<["auth_token" := EmptyString]> ∅))
          [] [] [] None None true None false true [].


Definition invalid_credentials : JsError :=
  mkJsError "Request failed with status code 401"
            (Some (mkErrResponse (Some (mkErrData (Some "Could not validate credentials"))))).

(** The run that ends in a statistics request without a token: log in, let the
    dashboard load, log out, pull to refresh. *)
Definition refresh_after_logout : list Action :=
  [ Restore; Login "alice@x.com" "secret1"; TokenEffect; Logout; TokenEffect ].

Definition sample_stats : Stats := mkStats 12 3 9 40 2 5 1 1800.

(** ** The rest of the dashboard screen *)

(** [getRoleColor]. *)
Definition getRoleColor (role : string) : string :=
  if String.eqb role "Admin" then "#FF3B30"
  else if String.eqb role "Sales" then "#34C759"
  else if String.eqb role "Buyer" then "#007AFF"
  else "#8E8E93".

(** [user?.role || ''], the argument the badge hands to [getRoleColor]. *)
Definition badge_role (u : option User) : string := js_or (role <$> u) "".

(** The role badge: [backgroundColor: getRoleColor(...) + '20'] and the text
    colour [getRoleColor(...)]. *)
Definition roleBadge_backgroundColor (u : option User) : string :=
  getRoleColor (badge_role u) ++ "20".
Definition roleText_color (u : option User) : string := getRoleColor (badge_role u).

(** [{user?.company_name && (<View>...{user.company_name}...</View>)}]: the
    text of the company card, when the card is there. *)
Definition companyCard (u : option User) : option string :=
  match u ≫= company_name with
  | Some c => if truthy (Some c) then Some c else None
  | None => None
  end.

(** A button of the quick actions grid. *)
Record ActionButton := mkActionButton {
  action_icon : string;
  action_color : string;
  actionText : string
}.

Definition actionsGrid (u : option User) : list ActionButton :=
  shown_when (role_is u "Admin" || role_is u "Sales")
    [ mkActionButton "add-circle-outline" "#007AFF" "Create Order" ]
  ++ shown_when (role_is u "Admin")
    [ mkActionButton "person-add-outline" "#34C759" "Add User" ]
  ++ shown_when (role_is u "Admin" || role_is u "Sales")
    [ mkActionButton "cube-outline" "#5856D6" "Add Product" ]
  ++ shown_when (role_is u "Buyer")
    [ mkActionButton "card-outline" "#FF9500" "Make Payment" ].

(** [stats?.f] for the integer fields. *)
Definition stat_field (f : StatField) (s : Stats) : Z :=
  match f with
  | f_total_orders => total_orders s
  | f_pending_orders => pending_orders s
  | f_completed_orders => completed_orders s
  | f_total_products => total_products s
  | f_low_stock_products => low_stock_products s
  | f_total_vendors => total_vendors s
  | f_pending_payments => pending_payments s
  | f_total_revenue => total_revenue s
  end.

(** ** The profile screen *)

(** The props of a [ProfileItem]; [value] is undefined where the user is. *)
Record ProfileItem := mkProfileItem {
  item_icon : string;
  item_label : string;
  item_value : option string
}.

(** The four rows of the account information card. *)
Definition profileItems (u : option User) : list ProfileItem :=
  [ mkProfileItem "mail-outline" "Email" (email <$> u);
    mkProfileItem "call-outline" "Mobile" (mobile <$> u);
    mkProfileItem "business-outline" "Company" (Some (js_or (u ≫= company_name) "N/A"));
    mkProfileItem "shield-outline" "Role" (role <$> u) ].

(** The two buttons of the alert that [handleLogout] opens. *)
Inductive AlertButton :=
| CancelButton      (* { text: 'Cancel', style: 'cancel' } *)
| LogoutButton.     (* { text: 'Logout', style: 'destructive', onPress } *)

(** [handleLogout], by the button the user presses: Cancel has no handler; the
    handler of Logout is [await logout(); router.replace('/auth/login')].  The
    result is the route the router is sent to, if it is sent anywhere. *)
Definition handleLogout (pressed : AlertButton) : M (option string) :=
  match pressed with
  | CancelButton => mret None
  | LogoutButton => logout;; mret (Some "/auth/login")
  end.

(** ** Predicates of the added statements *)

(** The in-memory token and user are both set or both null. *)
Definition coherent (w : World) : Prop := is_Some (token w) <-> is_Some (user w).

(** The stored identity record, if there is one, is text [JSON.parse] accepts. *)
Definition record_parses (P : Platform) (w : World) : Prop :=
  forall s, store w !! "user_data" = Some s -> is_Some (JSON_parse P s).

(** Every identity record the backend is going to answer with survives
    [JSON.stringify] followed by [JSON.parse]. *)
Definition replies_parse (P : Platform) (w : World) : Prop :=
  forall t u, AuthResolved t u ∈ posts w -> is_Some (JSON_parse P (JSON_stringify P u)).

(** The actions that cannot bring a token into memory. *)
Definition tokenless (a : Action) : Prop :=
  a = Logout \/ a = TokenEffect \/ a = PullToRefresh.

(** ** Stepping the monad *)

Ltac step_world w :=
  destruct w as [w_st w_fs w_ps w_gs w_usr w_tok w_il w_sts w_rf w_ld w_tr]; cbn [store faults posts gets user token isLoading stats refreshing loading trace] in *.

Ltac unfold_ops :=
  unfold loadStoredAuth, login, register, logout, tokenEffect, onRefresh, fetchStats,
    parse_user, try_catch, try_finally, throw,
    SecureStore_getItemAsync, SecureStore_setItemAsync, SecureStore_deleteItemAsync,
    axios_post, axios_get, console_error, store_call,
    setToken, setUser, setIsLoading, setStats, setRefreshing, setLoading, act,
    mbind, M_bind, mret, M_ret in *.

Ltac unfold_world :=
  unfold emit, with_store, with_faults, with_posts, with_gets, with_user, with_token,
    with_isLoading, with_stats, with_refreshing, with_loading in *.

Ltac crunch :=
  unfold_ops; unfold_world;
  cbn -[insert delete lookup String.append app] in *.

(** Membership in the short explicit lists of fault scripts and traces. *)
Ltac mem :=
  repeat match goal with
         | |- _ /\ _ => split
         | |- forall _, _ => intro
         end;
  rewrite ?take_0, ?not_elem_of_cons, ?elem_of_cons, ?elem_of_nil in *; naive_solver.

Ltac flat_trace := rewrite <- ?app_assoc; cbn [app].

Ltac fault_cases :=
  match goal with
  | f : list bool |- _ => destruct f as [|[] [|[] ?]]
  end.

Ltac entry_cases key H :=
  match goal with
  | st : gmap string string |- _ => destruct (st !! key) as [[|? ?]|] eqn:H
  end.

Ltac load_cases P w :=
  step_world w; fault_cases; crunch;
  entry_cases "auth_token" ident:(Htok); entry_cases "user_data" ident:(Husr);
  cbn -[insert delete lookup String.append app] in *;
  try (match goal with
       | |- context [JSON_parse P (String ?c ?s)] =>
           destruct (JSON_parse P (String c s)) eqn:Hparse
       end;
       cbn -[insert delete lookup String.append app] in * );
  flat_trace.

Ltac quiet_cases :=
  unfold quiet, store_step; fault_cases; crunch; intros Hq;
  try (exfalso; mem); (split; [mem | eauto 6]).

(** ** Login and register: persist, then adopt *)

Lemma login_persists_then_adopts P l p w access_token userData rest :
  posts w = AuthResolved access_token userData :: rest ->
  persists_then_adopts P (login P l p)
    (HttpPost (API_URL P ++ "/auth/login") (LoginBody l p)) w access_token userData.
Proof.
  intros Hp. step_world w. subst w_ps. unfold persists_then_adopts, calm, adopted_trace, since.
  destruct w_fs as [|[] [|[] fs]]; crunch; flat_trace;
    (split; intros Hc); cbn [trace]; rewrite ?drop_app_length; mem.
Qed.

Lemma register_persists_then_adopts P d w access_token userData rest :
  posts w = AuthResolved access_token userData :: rest ->
  persists_then_adopts P (register P d)
    (HttpPost (API_URL P ++ "/auth/register") (RegisterBody d)) w access_token userData.
Proof.
  intros Hp. step_world w. subst w_ps. unfold persists_then_adopts, calm, adopted_trace, since.
  destruct w_fs as [|[] [|[] fs]]; crunch; flat_trace;
    (split; intros Hc); cbn [trace]; rewrite ?drop_app_length; mem.
Qed.

(** C1. A login or register call that the server answers successfully first
    writes the token and the serialized identity record into the secure store
    and only then sets the in-memory token and user; if one of the two writes
    throws, the call throws and the in-memory token and user are unchanged. *)
Theorem login_register_persist_before_adopting P l p d w access_token userData rest :
  posts w = AuthResolved access_token userData :: rest ->
  persists_then_adopts P (login P l p)
    (HttpPost (API_URL P ++ "/auth/login") (LoginBody l p)) w access_token userData /\
  persists_then_adopts P (register P d)
    (HttpPost (API_URL P ++ "/auth/register") (RegisterBody d)) w access_token userData.
Proof.
  intros Hp. split.
  - eapply login_persists_then_adopts; eauto.
  - eapply register_persists_then_adopts; eauto.
Qed.

(** ** Logout *)

Lemma logout_returns w : fst (logout w) = Return tt.
Proof.
  step_world w. destruct w_fs as [|[] [|[] fs]]; crunch; reflexivity.
Qed.

Lemma logout_calm w :
  calm 2 w ->
  logout w =
    (Return tt,
     mkWorld (delete "user_data" (delete "auth_token" (store w))) (drop 2 (faults w))
             (posts w) (gets w) None None (isLoading w) (stats w) (refreshing w) (loading w)
             (trace w ++ logout_trace)).
Proof.
  unfold calm, logout_trace. step_world w.
  destruct w_fs as [|[] [|[] fs]]; crunch; flat_trace; intros Hc;
    rewrite ?drop_0; first [reflexivity | mem].
Qed.

Lemma logout_fault w :
  true ∈ take 2 (faults w) ->
  token (snd (logout w)) = token w /\
  user (snd (logout w)) = user w /\
  last (trace (snd (logout w))) = Some (ConsoleError "Error logging out:" SecureStore_error) /\
  (forall v, SetToken v ∉ since w (snd (logout w))) /\
  (forall v, SetUser v ∉ since w (snd (logout w))).
Proof.
  unfold since. step_world w.
  destruct w_fs as [|[] [|[] fs]]; crunch; flat_trace; intros Hc;
    rewrite ?last_snoc, ?drop_app_length;
    try (rewrite (last_app _ [_; _]); cbn [last]); mem.
Qed.

Lemma delete_both_twice (st : gmap string string) :
  delete "user_data" (delete "auth_token" (delete "user_data" (delete "auth_token" st)))
  = delete "user_data" (delete "auth_token" st).
Proof.
  apply map_eq. intros k. rewrite !lookup_delete. repeat case_decide; reflexivity.
Qed.

Lemma calm_le n m w : n <= m -> calm m w -> calm n w.
Proof.
  unfold calm. intros Hle Hc Hin. apply Hc.
  apply elem_of_take in Hin. destruct Hin as (i & Hi & Hlt).
  apply elem_of_take. exists i. split; [exact Hi | lia].
Qed.

(** ** Session restore *)

Lemma loadStoredAuth_returns P w : fst (loadStoredAuth P w) = Return tt.
Proof. load_cases P w; reflexivity. Qed.

Lemma http_app (l1 l2 : list Event) : http (l1 ++ l2) = (http l1 ++ http l2)%list.
Proof. unfold http. apply List.filter_app. Qed.

Lemma loadStoredAuth_frame P w :
  store (snd (loadStoredAuth P w)) = store w /\
  isLoading (snd (loadStoredAuth P w)) = false /\
  http (trace (snd (loadStoredAuth P w))) = http (trace w).
Proof.
  load_cases P w; rewrite ?http_app; cbn; rewrite ?app_nil_r; auto.
Qed.

Lemma loadStoredAuth_skips P w :
  true ∈ take 2 (faults w) \/
  truthy (store w !! "auth_token") = false \/
  truthy (store w !! "user_data") = false ->
  token (snd (loadStoredAuth P w)) = token w /\
  user (snd (loadStoredAuth P w)) = user w.
Proof.
  unfold calm. load_cases P w; intros Hc; try (split; reflexivity); exfalso; mem.
Qed.

Lemma loadStoredAuth_adopts P w t s u :
  calm 2 w ->
  store w !! "auth_token" = Some t -> t <> "" ->
  store w !! "user_data" = Some s -> s <> "" ->
  JSON_parse P s = Some u ->
  token (snd (loadStoredAuth P w)) = Some t /\
  user (snd (loadStoredAuth P w)) = Some u.
Proof.
  unfold calm. load_cases P w; intros Hc Ht Hne Hs Hne' Hp;
    try (exfalso; mem); simplify_eq; try (split; reflexivity); congruence.
Qed.

Lemma truthy_false v : truthy v = false <-> blank v.
Proof.
  unfold blank. destruct v as [[|c s]|]; cbn; split; intros H; auto;
    try discriminate; destruct H; discriminate.
Qed.

(** C4, amended. At startup (token and user null) the restore makes no server
    call and never throws; it adopts the stored token and the parsed identity
    record exactly when both reads go through, both entries hold a non-empty
    string and the record parses; when a read throws or an entry is absent or
    empty, the token and the user stay null. *)
Theorem restore_adopts_nonempty_pair P w :
  token w = None -> user w = None ->
  fst (loadStoredAuth P w) = Return tt /\
  http (trace (snd (loadStoredAuth P w))) = http (trace w) /\
  (forall t u,
     token (snd (loadStoredAuth P w)) = Some t /\ user (snd (loadStoredAuth P w)) = Some u <->
     calm 2 w /\ store w !! "auth_token" = Some t /\ t <> "" /\
     exists s, store w !! "user_data" = Some s /\ s <> "" /\ JSON_parse P s = Some u) /\
  (true ∈ take 2 (faults w) \/ blank (store w !! "auth_token") \/ blank (store w !! "user_data") ->
   token (snd (loadStoredAuth P w)) = None /\ user (snd (loadStoredAuth P w)) = None).
Proof.
  intros Ht Hu. split; [apply loadStoredAuth_returns|].
  split; [apply loadStoredAuth_frame|]. split.
  - intros t u. split.
    + intros [Ht' Hu']. revert Ht Hu Ht' Hu'. unfold calm.
      load_cases P w; intros; simplify_eq; mem.
    + intros (Hc & Hs & Hne & s & Hs' & Hne' & Hp).
      eapply loadStoredAuth_adopts; eauto.
  - intros H. rewrite <- !truthy_false in H.
    destruct (loadStoredAuth_skips P w H) as [-> ->]. auto.
Qed.

Lemma since_app w w' evs : trace w' = (trace w ++ evs)%list -> since w w' = evs.
Proof. unfold since. intros ->. apply drop_app_length. Qed.

Lemma logout_calm_store w :
  calm 2 w ->
  store (snd (logout w)) !! "auth_token" = None /\
  store (snd (logout w)) !! "user_data" = None.
Proof.
  intros Hc. rewrite (logout_calm w Hc). cbn [snd store]. split.
  - rewrite lookup_delete_ne by discriminate. apply lookup_delete_eq.
  - apply lookup_delete_eq.
Qed.

Lemma calm_after_logout w : calm 4 w -> calm 2 (snd (logout w)).
Proof.
  intros Hc. rewrite (logout_calm w (calm_le 2 4 w ltac:(lia) Hc)).
  unfold calm in *. cbn [snd faults]. intros Hin. apply Hc.
  change 4 with (2 + 2). rewrite <- (take_take_drop (faults w) 2 2).
  apply elem_of_app. right. exact Hin.
Qed.

(** C9. [logout] never throws to its caller.  If one of the two deletions
    throws, the error is caught and logged and the in-memory token and user
    are unchanged; the state setters run only after both deletions went
    through. *)
Theorem logout_swallows_deletion_failure w :
  fst (logout w) = Return tt /\
  (true ∈ take 2 (faults w) ->
     token (snd (logout w)) = token w /\
     user (snd (logout w)) = user w /\
     last (trace (snd (logout w))) = Some (ConsoleError "Error logging out:" SecureStore_error)) /\
  ((exists v, SetToken v ∈ since w (snd (logout w))) \/
   (exists v, SetUser v ∈ since w (snd (logout w))) ->
     calm 2 w /\ since w (snd (logout w)) = logout_trace).
Proof.
  split; [apply logout_returns|]. split.
  - intros Hf. destruct (logout_fault w Hf) as (? & ? & ? & _). auto.
  - intros Hv. destruct (decide (true ∈ take 2 (faults w))) as [Hf|Hc].
    + destruct (logout_fault w Hf) as (_ & _ & _ & Hnt & Hnu).
      destruct Hv as [[v Hv]|[v Hv]]; [destruct (Hnt v Hv) | destruct (Hnu v Hv)].
    + split; [exact Hc|]. apply since_app. rewrite (logout_calm w Hc). reflexivity.
Qed.

(** C6, amended. [logout] never throws, the first time or the second, whatever
    is stored.  When the deletions do not throw, it deletes both entries and
    then clears the token and the user, a second call changes nothing of the
    store and the session, and an empty store stays empty. *)
Theorem logout_idempotent_when_deletions_succeed w :
  fst (logout w) = Return tt /\
  fst (logout (snd (logout w))) = Return tt /\
  (calm 2 w ->
     since w (snd (logout w)) = logout_trace /\
     store (snd (logout w)) !! "auth_token" = None /\
     store (snd (logout w)) !! "user_data" = None /\
     token (snd (logout w)) = None /\
     user (snd (logout w)) = None) /\
  (calm 4 w ->
     store (snd (logout (snd (logout w)))) = store (snd (logout w)) /\
     token (snd (logout (snd (logout w)))) = token (snd (logout w)) /\
     user (snd (logout (snd (logout w)))) = user (snd (logout w)) /\
     isLoading (snd (logout (snd (logout w)))) = isLoading (snd (logout w))) /\
  (calm 2 w -> store w = ∅ -> store (snd (logout w)) = ∅).
Proof.
  split; [apply logout_returns|]. split; [apply logout_returns|]. split; [|split].
  - intros Hc. split; [apply since_app; rewrite (logout_calm w Hc); reflexivity|].
    destruct (logout_calm_store w Hc) as [Ha Hu].
    repeat split; auto; rewrite (logout_calm w Hc); reflexivity.
  - intros Hc4. pose proof (calm_after_logout w Hc4) as Hc2.
    rewrite (logout_calm _ Hc2). cbn [snd store token user isLoading].
    rewrite (logout_calm w (calm_le 2 4 w ltac:(lia) Hc4)). cbn [snd store token user isLoading].
    split; [apply delete_both_twice|]. auto.
  - intros Hc He. rewrite (logout_calm w Hc). cbn [snd store]. rewrite He.
    rewrite !delete_empty. reflexivity.
Qed.

(** C5, amended. When the two deletions of [logout] do not throw, both storage
    keys are absent afterwards and a session restore, on restart or at once,
    leaves the in-memory token and user null. *)
Theorem logout_then_restore_has_no_session P w :
  calm 2 w ->
  store (snd (logout w)) !! "auth_token" = None /\
  store (snd (logout w)) !! "user_data" = None /\
  token (snd (loadStoredAuth P (restart (snd (logout w))))) = None /\
  user (snd (loadStoredAuth P (restart (snd (logout w))))) = None /\
  token (snd (loadStoredAuth P (snd (logout w)))) = None /\
  user (snd (loadStoredAuth P (snd (logout w)))) = None.
Proof.
  intros Hc. destruct (logout_calm_store w Hc) as [Ha Hu].
  split; [exact Ha|]. split; [exact Hu|].
  assert (Hblank : forall w', store w' = store (snd (logout w)) ->
            token (snd (loadStoredAuth P w')) = token w' /\
            user (snd (loadStoredAuth P w')) = user w').
  { intros w' Hs. apply loadStoredAuth_skips. right. left. rewrite Hs, Ha. reflexivity. }
  destruct (Hblank (restart (snd (logout w))) eq_refl) as [-> ->].
  destruct (Hblank (snd (logout w)) eq_refl) as [-> ->].
  rewrite (logout_calm w Hc). cbn. auto.
Qed.

(** ** The two entries over runs of the client *)

Lemma store_step_paired s s' : store_step s s' -> paired s -> paired s'.
Proof.
  unfold paired. intros [-> | [(t & r & ->) | ->]] Hp.
  - exact Hp.
  - rewrite lookup_insert_ne by discriminate. rewrite !lookup_insert_eq.
    split; intros _; eauto.
  - rewrite lookup_delete_ne by discriminate. rewrite !lookup_delete_eq.
    split; intros [x Hx]; discriminate.
Qed.

Lemma loadStoredAuth_quiet P w :
  quiet w ->
  quiet (snd (loadStoredAuth P w)) /\ store_step (store w) (store (snd (loadStoredAuth P w))).
Proof.
  intros Hq. destruct (loadStoredAuth_frame P w) as (Hs & _ & _). split.
  - revert Hq. unfold quiet. load_cases P w; intros Hq; mem.
  - left. exact Hs.
Qed.

Lemma login_quiet P l p w :
  quiet w ->
  quiet (snd (login P l p w)) /\ store_step (store w) (store (snd (login P l p w))).
Proof.
  step_world w. destruct w_ps as [|[t u|e] rest]; quiet_cases.
Qed.

Lemma register_quiet P d w :
  quiet w ->
  quiet (snd (register P d w)) /\ store_step (store w) (store (snd (register P d w))).
Proof.
  step_world w. destruct w_ps as [|[t u|e] rest]; quiet_cases.
Qed.

Lemma logout_quiet w :
  quiet w ->
  quiet (snd (logout w)) /\ store_step (store w) (store (snd (logout w))).
Proof.
  step_world w. quiet_cases.
Qed.

Lemma fetchStats_frame P w :
  store (snd (fetchStats P w)) = store w /\
  faults (snd (fetchStats P w)) = faults w /\
  token (snd (fetchStats P w)) = token w /\
  user (snd (fetchStats P w)) = user w /\
  loading (snd (fetchStats P w)) = false.
Proof.
  step_world w. destruct w_gs as [|[s|e] rest]; crunch; auto.
Qed.

Lemma dashboard_frame P a w :
  a = TokenEffect \/ a = PullToRefresh ->
  store (snd (perform P a w)) = store w /\ faults (snd (perform P a w)) = faults w.
Proof.
  intros [-> | ->]; cbn [perform]; unfold tokenEffect, onRefresh.
  - destruct (truthy (token w)); [|auto].
    destruct (fetchStats_frame P w) as (? & ? & _). auto.
  - destruct (loading w); [auto|].
    unfold mbind, M_bind, setRefreshing, act.
    destruct (fetchStats_frame P (with_refreshing true w)) as (? & ? & _). auto.
Qed.

Lemma perform_quiet P a w :
  quiet w ->
  quiet (snd (perform P a w)) /\ store_step (store w) (store (snd (perform P a w))).
Proof.
  intros Hq. destruct a; cbn [perform].
  - apply loadStoredAuth_quiet, Hq.
  - apply login_quiet, Hq.
  - apply register_quiet, Hq.
  - apply logout_quiet, Hq.
  - destruct (dashboard_frame P TokenEffect w) as [Hs Hf]; [auto|].
    cbn [perform] in *. unfold quiet. rewrite Hf. split; [exact Hq | left; exact Hs].
  - destruct (dashboard_frame P PullToRefresh w) as [Hs Hf]; [auto|].
    cbn [perform] in *. unfold quiet. rewrite Hf. split; [exact Hq | left; exact Hs].
Qed.

(** C2, amended. In every run in which no secure-storage call throws, each
    action leaves the store alone, writes both entries or deletes both
    entries, so a store that starts with both entries or none never holds
    exactly one of them. *)
Theorem entries_paired_when_storage_never_throws P acts w :
  quiet w ->
  paired (store w) ->
  paired (store (run P acts w)) /\
  (forall a, store_step (store w) (store (snd (perform P a w)))).
Proof.
  intros Hq Hp. split.
  - revert w Hq Hp. induction acts as [|a acts IH]; intros w Hq Hp; cbn [run].
    + exact Hp.
    + destruct (perform_quiet P a w Hq) as [Hq' Hstep].
      apply IH; [exact Hq' | eapply store_step_paired; eauto].
  - intros a. apply (perform_quiet P a w Hq).
Qed.

(** ** Failed auth calls *)










(** ** The statistics request *)

Lemma fetchStats_one_request P w :
  http (since w (snd (fetchStats P w))) = [stats_request P w].
Proof.
  unfold since, stats_request. step_world w. destruct w_gs as [|[s|e] rest];
    crunch; flat_trace; rewrite ?drop_app_length; reflexivity.
Qed.

Lemma tokenEffect_requests P w :
  since w (snd (tokenEffect P w)) =
    if truthy (token w) then since w (snd (fetchStats P w)) else [].
Proof.
  unfold tokenEffect. destruct (truthy (token w)); [reflexivity|].
  unfold since. cbn [snd]. apply drop_all.
Qed.

Lemma onRefresh_one_request P w :
  http (since w (snd (onRefresh P w))) = [stats_request P w].
Proof.
  unfold since, stats_request. step_world w. destruct w_gs as [|[s|e] rest];
    crunch; flat_trace; rewrite ?drop_app_length; reflexivity.
Qed.

(** C8, amended. Every statistics request carries the header [Bearer]
    followed by the token of the session that is active when it is made, and
    the request the screen issues by itself, in the effect on the token, is
    issued only when a token is present. *)
Theorem stats_request_bears_session_token P w :
  (forall t, token w = Some t ->
     http (since w (snd (fetchStats P w))) =
       [HttpGet (API_URL P ++ "/dashboard/stats") ("Bearer " ++ t)] /\
     http (since w (snd (onRefresh P w))) =
       [HttpGet (API_URL P ++ "/dashboard/stats") ("Bearer " ++ t)] /\
     forall ev, ev ∈ http (since w (snd (tokenEffect P w))) ->
       ev = HttpGet (API_URL P ++ "/dashboard/stats") ("Bearer " ++ t)) /\
  (blank (token w) -> since w (snd (tokenEffect P w)) = []) /\
  (forall ev, ev ∈ http (since w (snd (tokenEffect P w))) ->
     exists t, token w = Some t /\ t <> "").
Proof.
  split; [|split].
  - intros t Ht. rewrite fetchStats_one_request, onRefresh_one_request, tokenEffect_requests.
    unfold stats_request. rewrite Ht. cbn [interpolate].
    split; [reflexivity|]. split; [reflexivity|].
    intros ev. destruct (truthy (Some t)).
    + rewrite fetchStats_one_request. unfold stats_request. rewrite Ht. cbn [interpolate].
      intros Hin. apply list_elem_of_singleton in Hin. exact Hin.
    + cbn. intros Hin. apply elem_of_nil in Hin. destruct Hin.
  - intros Hb. rewrite tokenEffect_requests.
    apply truthy_false in Hb. rewrite Hb. reflexivity.
  - intros ev. rewrite tokenEffect_requests.
    destruct (token w) as [[|c t]|]; cbn [truthy negb String.eqb http List.filter];
      try (intros Hin; apply elem_of_nil in Hin; destruct Hin).
    intros _. eexists. split; [reflexivity | discriminate].
Qed.

(** ** The statistics grid by role *)

Lemma role_is_true u r : role_is (Some u) r = true -> role u = r.
Proof. cbn. apply String.eqb_eq. Qed.

Lemma role_is_false u r : role_is (Some u) r = false -> role u <> r.
Proof. cbn. apply String.eqb_neq. Qed.

Lemma statsGrid_cards u c :
  c ∈ statsGrid (Some u) ->
  (title c = "Low Stock Items" \/ title c = "Total Vendors" \/
   value c = CountOrZero f_low_stock_products \/ value c = CountOrZero f_total_vendors ->
   role u = "Admin") /\
  (title c = "Total Orders" \/ title c = "Completed Orders" \/ title c = "Total Products" \/
   value c = CountOrZero f_completed_orders \/ value c = CountOrZero f_total_products ->
   role u = "Admin" \/ role u = "Sales") /\
  (role u = "Admin" \/ role u = "Sales" \/ role u = "Buyer") /\
  (title c = "My Orders" -> role u = "Buyer").
Proof.
  unfold statsGrid, shown_when.
  destruct (role_is (Some u) "Admin") eqn:HA;
  destruct (role_is (Some u) "Sales") eqn:HS;
  destruct (role_is (Some u) "Buyer") eqn:HB;
  try apply role_is_true in HA; try apply role_is_true in HS; try apply role_is_true in HB;
  cbn [orb app]; rewrite ?elem_of_cons, ?elem_of_nil;
  intros Hc; repeat (destruct Hc as [Hc|Hc]); try contradiction; subst c; cbn [title value];
  (split; [|split; [|split]]); auto; intros H; repeat (destruct H as [H|H]); auto;
  discriminate.
Qed.

Lemma statsGrid_buyer u : role u = "Buyer" -> statsGrid (Some u) = buyer_grid.
Proof.
  intros Hr. unfold statsGrid, shown_when, role_is. rewrite Hr. reflexivity.
Qed.

(** C3, amended. The dashboard puts a statistics card on screen only for a
    user with one of the three roles: Low Stock Items and Total Vendors only
    for Admin; Total Orders, Completed Orders and Total Products only for Admin
    and Sales; Pending Orders, Pending Payments and Total Revenue for all three
    roles; My Orders only for Buyer, whose grid is the two payment figures, My
    Orders (the total_orders field) and Pending Orders. *)
Theorem dashboard_cards_by_role w c :
  c ∈ displayed_cards (DashboardScreen_render w) ->
  exists u, user w = Some u /\
    (title c = "Low Stock Items" \/ title c = "Total Vendors" \/
     value c = CountOrZero f_low_stock_products \/ value c = CountOrZero f_total_vendors ->
     role u = "Admin") /\
    (title c = "Total Orders" \/ title c = "Completed Orders" \/ title c = "Total Products" \/
     value c = CountOrZero f_completed_orders \/ value c = CountOrZero f_total_products ->
     role u = "Admin" \/ role u = "Sales") /\
    (role u = "Admin" \/ role u = "Sales" \/ role u = "Buyer") /\
    (title c = "My Orders" -> role u = "Buyer") /\
    (role u = "Buyer" -> displayed_cards (DashboardScreen_render w) = buyer_grid).
Proof.
  unfold DashboardScreen_render. destruct (loading w); cbn [displayed_cards].
  - intros Hin. apply elem_of_nil in Hin. destruct Hin.
  - destruct (user w) as [u|].
    + intros Hin. exists u. split; [reflexivity|].
      destruct (statsGrid_cards u c Hin) as (H1 & H2 & H3 & H4).
      repeat split; auto. apply statsGrid_buyer.
    + cbn. intros Hin. apply elem_of_nil in Hin. destruct Hin.
Qed.

(** ** The hook *)

(** C10. [useAuth] called where no [AuthProvider] is mounted above, so that
    the context value is undefined, throws; a component that gets a context
    value from [useAuth] has a provider above it, and the value is the one of
    the nearest provider. *)
Theorem useAuth_requires_provider :
  useAuth [] = Throw (new_Error "useAuth must be used within an AuthProvider") /\
  (forall enclosing, useContext enclosing = None ->
     useAuth enclosing = Throw (new_Error "useAuth must be used within an AuthProvider")) /\
  (forall enclosing context, useAuth enclosing = Return context ->
     exists outer, enclosing = context :: outer).
Proof.
  split; [reflexivity|]. split.
  - intros enclosing H. unfold useAuth. rewrite H. reflexivity.
  - intros [|v outer] context; cbn; intros H; [discriminate|].
    injection H as ->. eauto.
Qed.

(** ** Concrete runs *)

Lemma calm_nil n w : faults w = [] -> calm n w.
Proof. unfold calm. intros ->. rewrite take_nil. apply not_elem_of_nil. Qed.

Lemma login_register_persist_before_adopting_witness :
  token (snd (login sample_platform "alice@x.com" "secret1"
                (install [] [AuthResolved "tok-1" alice] []))) = Some "tok-1" /\
  user (snd (login sample_platform "alice@x.com" "secret1"
               (install [] [AuthResolved "tok-1" alice] []))) = Some alice.
Proof.
  destruct (login_register_persist_before_adopting sample_platform
              "alice@x.com" "secret1" sample_registration
              (install [] [AuthResolved "tok-1" alice] []) "tok-1" alice [] eq_refl)
    as [[Hok _] _].
  destruct Hok as (_ & _ & Ht & Hu & _); [apply calm_nil; reflexivity|].
  split; assumption.
Defined.

(** C2 as stated fails: a login whose second write throws leaves the token in
    the store without the identity record. *)
Lemma second_write_failure_splits_the_pair :
  paired (store (install [false; true] [AuthResolved "tok-1" alice] [])) /\
  store (run sample_platform [Login "alice@x.com" "secret1"]
           (install [false; true] [AuthResolved "tok-1" alice] [])) !! "auth_token"
    = Some "tok-1" /\
  store (run sample_platform [Login "alice@x.com" "secret1"]
           (install [false; true] [AuthResolved "tok-1" alice] [])) !! "user_data"
    = None /\
  ~ paired (store (run sample_platform [Login "alice@x.com" "secret1"]
                     (install [false; true] [AuthResolved "tok-1" alice] []))).
Proof.
  assert (Ha : store (run sample_platform [Login "alice@x.com" "secret1"]
                        (install [false; true] [AuthResolved "tok-1" alice] [])) !! "auth_token"
               = Some "tok-1") by (vm_compute; reflexivity).
  assert (Hu : store (run sample_platform [Login "alice@x.com" "secret1"]
                        (install [false; true] [AuthResolved "tok-1" alice] [])) !! "user_data"
               = None) by (vm_compute; reflexivity).
  split; [|split; [exact Ha | split; [exact Hu|]]].
  - unfold paired, install. cbn [store]. rewrite !lookup_empty.
    split; intros [x Hx]; discriminate.
  - unfold paired. rewrite Ha, Hu. intros [H _].
    destruct (H (ex_intro _ _ eq_refl)) as [x Hx]. discriminate.
Qed.

Lemma entries_paired_when_storage_never_throws_witness :
  paired (store (run sample_platform
                   [Restore; Login "alice@x.com" "secret1"; TokenEffect; Logout]
                   (install [] [AuthResolved "tok-1" alice] []))).
Proof.
  apply (entries_paired_when_storage_never_throws sample_platform
           [Restore; Login "alice@x.com" "secret1"; TokenEffect; Logout]
           (install [] [AuthResolved "tok-1" alice] [])).
  - unfold quiet, install. cbn [faults]. apply not_elem_of_nil.
  - unfold paired, install. cbn [store]. rewrite !lookup_empty.
    split; intros [x Hx]; discriminate.
Defined.

(** C3 as stated fails: a Buyer is shown a Pending Orders card, and the
    total_orders field under the title My Orders. *)
Lemma buyer_sees_pending_orders :
  mkStatCard "Pending Orders" (CountOrZero f_pending_orders) "time-outline" "#FF9500"
    ∈ displayed_cards (DashboardScreen_render buyer_dashboard) /\
  mkStatCard "My Orders" (CountOrZero f_total_orders) "cart-outline" "#007AFF"
    ∈ displayed_cards (DashboardScreen_render buyer_dashboard) /\
  role bob <> "Admin" /\ role bob <> "Sales".
Proof.
  change (displayed_cards (DashboardScreen_render buyer_dashboard)) with buyer_grid.
  unfold buyer_grid. rewrite !elem_of_cons.
  split; [auto 6|]. split; [auto 6|]. split; discriminate.
Qed.

Lemma dashboard_cards_by_role_witness :
  exists u, user buyer_dashboard = Some u /\ role u = "Buyer".
Proof.
  destruct (dashboard_cards_by_role buyer_dashboard
              (mkStatCard "My Orders" (CountOrZero f_total_orders) "cart-outline" "#007AFF"))
    as (u & Hu & _ & _ & _ & Hmy & _).
  - change (displayed_cards (DashboardScreen_render buyer_dashboard)) with buyer_grid.
    unfold buyer_grid. rewrite !elem_of_cons. auto 6.
  - exists u. split; [exact Hu | apply Hmy; reflexivity].
Defined.

(** C4 as stated fails: both entries are present and readable, the record
    parses, and the restore adopts nothing, because the stored token is the
    empty string. *)
Lemma restore_skips_empty_token :
  store empty_token_device !! "auth_token" = Some EmptyString /\
  store empty_token_device !! "user_data" = Some (sample_stringify alice) /\
  JSON_parse sample_platform (sample_stringify alice) = Some alice /\
  calm 2 empty_token_device /\
  token (snd (loadStoredAuth sample_platform empty_token_device)) = None /\
  user (snd (loadStoredAuth sample_platform empty_token_device)) = None.
Proof.
  split; [vm_compute; reflexivity|]. split; [vm_compute; reflexivity|].
  split; [vm_compute; reflexivity|]. split; [apply calm_nil; reflexivity|].
  split; vm_compute; reflexivity.
Qed.

(** A stored record that does not parse: the token is set before the parse
    throws, the user stays null. *)
Example restore_with_unparsable_record :
  let w := mkWorld (<["user_data" := "not json"]> (<["auth_token" := "tok-1"]> ∅))
                   [] [] [] None None true None false true [] in
  token (snd (loadStoredAuth sample_platform w)) = Some "tok-1" /\
  user (snd (loadStoredAuth sample_platform w)) = None /\
  fst (loadStoredAuth sample_platform w) = Return tt.
Proof. repeat split; vm_compute; reflexivity. Qed.

Lemma restore_adopts_nonempty_pair_witness :
  token (snd (loadStoredAuth sample_platform (restart (logged_in [])))) = Some "tok-1" /\
  user (snd (loadStoredAuth sample_platform (restart (logged_in [])))) = Some alice.
Proof.
  destruct (restore_adopts_nonempty_pair sample_platform (restart (logged_in []))
              eq_refl eq_refl) as (_ & _ & Hiff & _).
  apply (Hiff "tok-1" alice).
  split; [apply calm_nil; reflexivity|].
  split; [vm_compute; reflexivity|]. split; [discriminate|].
  exists (sample_stringify alice).
  split; [vm_compute; reflexivity|]. split; [discriminate|]. vm_compute; reflexivity.
Defined.

(** C5 as stated fails: when the first deletion throws, [logout] returns, both
    keys are still stored, and the restore after a restart adopts the session
    again. *)
Lemma failed_logout_survives_restart :
  fst (logout (logged_in [true])) = Return tt /\
  store (snd (logout (logged_in [true]))) !! "auth_token" = Some "tok-1" /\
  store (snd (logout (logged_in [true]))) !! "user_data" = Some (sample_stringify alice) /\
  token (snd (loadStoredAuth sample_platform (restart (snd (logout (logged_in [true]))))))
    = Some "tok-1" /\
  user (snd (loadStoredAuth sample_platform (restart (snd (logout (logged_in [true]))))))
    = Some alice.
Proof. repeat split; vm_compute; reflexivity. Qed.

Lemma logout_then_restore_has_no_session_witness :
  token (snd (loadStoredAuth sample_platform (restart (snd (logout (logged_in [])))))) = None /\
  user (snd (loadStoredAuth sample_platform (restart (snd (logout (logged_in [])))))) = None.
Proof.
  destruct (logout_then_restore_has_no_session sample_platform (logged_in []))
    as (_ & _ & Ht & Hu & _); [apply calm_nil; reflexivity|].
  split; assumption.
Defined.

(** C6 as stated fails: with a first deletion that throws, one [logout] leaves
    both entries and the session in place, so it neither deletes the persisted
    values nor ends in the state that two calls end in. *)
Lemma failed_logout_is_not_idempotent :
  store (snd (logout (logged_in [true]))) !! "auth_token" = Some "tok-1" /\
  token (snd (logout (logged_in [true]))) = Some "tok-1" /\
  user (snd (logout (logged_in [true]))) = Some alice /\
  store (snd (logout (snd (logout (logged_in [true]))))) !! "auth_token" = None /\
  token (snd (logout (snd (logout (logged_in [true]))))) = None /\
  user (snd (logout (snd (logout (logged_in [true]))))) = None.
Proof. repeat split; vm_compute; reflexivity. Qed.

Lemma logout_idempotent_when_deletions_succeed_witness :
  since (logged_in []) (snd (logout (logged_in []))) = logout_trace /\
  store (snd (logout (snd (logout (logged_in []))))) = store (snd (logout (logged_in []))).
Proof.
  destruct (logout_idempotent_when_deletions_succeed (logged_in []))
    as (_ & _ & Honce & Htwice & _).
  destruct Honce as (Htr & _); [apply calm_nil; reflexivity|].
  destruct Htwice as (Hst & _); [apply calm_nil; reflexivity|].
  split; assumption.
Defined.



(** C8 as stated fails: after a logout the screen is past its spinner, no
    token is present, and the refresh gesture issues the statistics request,
    with the header [Bearer null]. *)
Lemma refresh_after_logout_sends_request_without_token :
  let w := run sample_platform refresh_after_logout
             (install [] [AuthResolved "tok-1" alice] [StatsResolved sample_stats]) in
  token w = None /\
  DashboardScreen_render w = DashboardView [] /\
  http (since w (snd (perform sample_platform PullToRefresh w)))
    = [HttpGet "https://backend.example/api/dashboard/stats" "Bearer null"].
Proof. cbv zeta. repeat split; vm_compute; reflexivity. Qed.

Lemma stats_request_bears_session_token_witness :
  http (since (logged_in []) (snd (fetchStats sample_platform (logged_in []))))
    = [HttpGet (API_URL sample_platform ++ "/dashboard/stats") ("Bearer " ++ "tok-1")].
Proof.
  destruct (stats_request_bears_session_token sample_platform (logged_in [])) as (Hb & _).
  destruct (Hb "tok-1" eq_refl) as (Hf & _). exact Hf.
Defined.

Lemma logout_swallows_deletion_failure_witness :
  fst (logout (logged_in [false; true])) = Return tt /\
  token (snd (logout (logged_in [false; true]))) = Some "tok-1" /\
  user (snd (logout (logged_in [false; true]))) = Some alice.
Proof.
  destruct (logout_swallows_deletion_failure (logged_in [false; true])) as (Hr & Hf & _).
  destruct Hf as (Ht & Hu & _).
  { cbn. rewrite !elem_of_cons. auto. }
  split; [exact Hr|]. split; [exact Ht | exact Hu].
Defined.

Lemma useAuth_requires_provider_witness :
  exists outer,
    [AuthProvider_value sample_platform (logged_in [])]
    = AuthProvider_value sample_platform (logged_in []) :: outer.
Proof.
  destruct useAuth_requires_provider as (_ & _ & Hin).
  apply (Hin [AuthProvider_value sample_platform (logged_in [])]
             (AuthProvider_value sample_platform (logged_in []))).
  reflexivity.
Defined.

(** ** Further properties of the session client *)

(** X1. The session restore always settles: whatever the secure store holds
    or throws and whether or not the stored record parses, [loadStoredAuth]
    returns without throwing, ends with [isLoading] false as its last effect,
    leaves the secure store as it was and issues no HTTP request. *)
Theorem restore_always_settles P w :
  fst (loadStoredAuth P w) = Return tt /\
  isLoading (snd (loadStoredAuth P w)) = false /\
  last (trace (snd (loadStoredAuth P w))) = Some (SetIsLoading false) /\
  store (snd (loadStoredAuth P w)) = store w /\
  http (since w (snd (loadStoredAuth P w))) = [].
Proof.
  unfold since.
  load_cases P w; cbn [trace length]; rewrite ?drop_app_length;
    repeat split; try reflexivity;
    try (rewrite last_snoc; reflexivity);
    try (rewrite (last_app _ [_; _]); reflexivity);
    try (rewrite (last_app _ [_; _; _]); reflexivity).
Qed.

(** X2. Logging out is local: [logout] issues no HTTP request and consumes no
    scripted reply, with or without a deletion that throws, and it never
    writes an entry. *)
Theorem logout_is_local w :
  http (since w (snd (logout w))) = [] /\
  posts (snd (logout w)) = posts w /\
  gets (snd (logout w)) = gets w /\
  (forall k v, StoreSet k v ∉ since w (snd (logout w))).
Proof.
  unfold since. step_world w. fault_cases; crunch; flat_trace;
    rewrite ?drop_app_length; repeat split; try reflexivity; mem.
Qed.

(** X3. A login or register call the backend does not answer successfully (it
    rejects, or there is no answer) makes no secure-storage call and changes
    neither the store nor the session: a failed attempt does not log the
    current user out. *)
Theorem rejected_auth_call_changes_nothing P l p d w :
  (forall t u rest, posts w <> AuthResolved t u :: rest) ->
  (exists e, fst (login P l p w) = Throw e) /\
  (exists e, fst (register P d w) = Throw e) /\
  store (snd (login P l p w)) = store w /\
  store (snd (register P d w)) = store w /\
  faults (snd (login P l p w)) = faults w /\
  faults (snd (register P d w)) = faults w /\
  token (snd (login P l p w)) = token w /\
  token (snd (register P d w)) = token w /\
  user (snd (login P l p w)) = user w /\
  user (snd (register P d w)) = user w.
Proof.
  intros Hrej. step_world w. destruct w_ps as [|[t u|e] rest].
  - crunch. repeat split; eauto.
  - destruct (Hrej t u rest eq_refl).
  - crunch. repeat split; eauto.
Qed.

Lemma rejected_auth_call_changes_nothing_witness :
  token (snd (login sample_platform "bob@x.com" "wrong"
                (with_posts [AuthRejected invalid_credentials] (logged_in []))))
    = Some "tok-1" /\
  store (snd (login sample_platform "bob@x.com" "wrong"
                (with_posts [AuthRejected invalid_credentials] (logged_in []))))
    = store (logged_in []).
Proof.
  destruct (rejected_auth_call_changes_nothing sample_platform "bob@x.com" "wrong"
              sample_registration
              (with_posts [AuthRejected invalid_credentials] (logged_in [])))
    as (_ & _ & Hs & _ & _ & _ & Ht & _).
  - intros t u rest H. discriminate H.
  - split; [exact Ht | exact Hs].
Defined.

(** X4. [fetchStats] never throws and always ends with [loading] and
    [refreshing] false.  A resolved request replaces the statistics; a rejected
    or unanswered one keeps the statistics shown before and logs the error.
    The session and the secure store are never touched. *)
Theorem fetchStats_settles_and_keeps_stale_stats P w :
  fst (fetchStats P w) = Return tt /\
  loading (snd (fetchStats P w)) = false /\
  refreshing (snd (fetchStats P w)) = false /\
  token (snd (fetchStats P w)) = token w /\
  user (snd (fetchStats P w)) = user w /\
  store (snd (fetchStats P w)) = store w /\
  (forall s rest, gets w = StatsResolved s :: rest ->
     stats (snd (fetchStats P w)) = Some s /\
     forall label e, ConsoleError label e ∉ since w (snd (fetchStats P w))) /\
  ((forall s rest, gets w <> StatsResolved s :: rest) ->
     stats (snd (fetchStats P w)) = stats w /\
     exists e, last (trace (snd (fetchStats P w))) = Some (ConsoleError "Error fetching stats:" e)).
Proof.
  unfold since. step_world w. destruct w_gs as [|[s|e] rest]; crunch; flat_trace;
    rewrite ?drop_app_length; repeat split; try reflexivity;
    try match goal with
        | H : _ = _ :: _ |- _ => first [discriminate H | injection H as -> ->; reflexivity]
        | H : forall _ _, _ <> _ |- _ => exfalso; eapply H; reflexivity
        end;
    try (rewrite (last_app _ [_; _]); eauto); mem.
Qed.

Ltac other_key :=
  intros; cbn [store snd];
  rewrite ?lookup_insert_ne, ?lookup_delete_ne by congruence; reflexivity.

Lemma login_other_keys P l p w k :
  k <> "auth_token" -> k <> "user_data" -> store (snd (login P l p w)) !! k = store w !! k.
Proof.
  step_world w. destruct w_ps as [|[t u|e] rest]; fault_cases; crunch; other_key.
Qed.

Lemma register_other_keys P d w k :
  k <> "auth_token" -> k <> "user_data" -> store (snd (register P d w)) !! k = store w !! k.
Proof.
  step_world w. destruct w_ps as [|[t u|e] rest]; fault_cases; crunch; other_key.
Qed.

Lemma logout_other_keys w k :
  k <> "auth_token" -> k <> "user_data" -> store (snd (logout w)) !! k = store w !! k.
Proof.
  step_world w. fault_cases; crunch; other_key.
Qed.

Lemma perform_other_keys P a w k :
  k <> "auth_token" -> k <> "user_data" -> store (snd (perform P a w)) !! k = store w !! k.
Proof.
  intros H1 H2. destruct a; cbn [perform].
  - destruct (loadStoredAuth_frame P w) as (-> & _). reflexivity.
  - apply login_other_keys; assumption.
  - apply register_other_keys; assumption.
  - apply logout_other_keys; assumption.
  - destruct (dashboard_frame P TokenEffect w) as [Hs _]; [auto|].
    cbn [perform] in Hs. rewrite Hs. reflexivity.
  - destruct (dashboard_frame P PullToRefresh w) as [Hs _]; [auto|].
    cbn [perform] in Hs. rewrite Hs. reflexivity.
Qed.

(** X5. The client owns two keys of the secure store and no other: over every
    run, with any storage failures and any backend answers, every key other
    than 'auth_token' and 'user_data' holds what it held before. *)
Theorem runs_touch_only_the_two_keys P acts w k :
  k <> "auth_token" -> k <> "user_data" ->
  store (run P acts w) !! k = store w !! k.
Proof.
  intros H1 H2. revert w. induction acts as [|a acts IH]; intros w; cbn [run].
  - reflexivity.
  - rewrite IH. apply perform_other_keys; assumption.
Qed.

Lemma runs_touch_only_the_two_keys_witness :
  store (run sample_platform [Login "alice@x.com" "secret1"; Logout]
           (with_store {["theme" := "dark"]} (install [] [AuthResolved "tok-1" alice] [])))
    !! "theme" = Some "dark".
Proof.
  rewrite (runs_touch_only_the_two_keys sample_platform
             [Login "alice@x.com" "secret1"; Logout]
             (with_store {["theme" := "dark"]} (install [] [AuthResolved "tok-1" alice] []))
             "theme") by discriminate.
  vm_compute. reflexivity.
Defined.

Lemma perform_isLoading P a w :
  isLoading (snd (perform P a w)) = match a with Restore => false | _ => isLoading w end.
Proof.
  destruct a; cbn [perform].
  - apply loadStoredAuth_frame.
  - step_world w. destruct w_ps as [|[t u|e] rest]; fault_cases; crunch; reflexivity.
  - step_world w. destruct w_ps as [|[t u|e] rest]; fault_cases; crunch; reflexivity.
  - step_world w. fault_cases; crunch; reflexivity.
  - step_world w. destruct w_tok as [[|c t]|]; destruct w_gs as [|[s|e] rest]; crunch; reflexivity.
  - step_world w. destruct w_ld; destruct w_gs as [|[s|e] rest]; crunch; reflexivity.
Qed.

(** X6. Only the session restore writes [isLoading], and it writes false: in
    every run, once the restore has run or the flag is down, no login,
    register, logout or dashboard action raises it again. *)
Theorem isLoading_stays_down P acts w :
  Restore ∈ acts \/ isLoading w = false ->
  isLoading (run P acts w) = false.
Proof.
  revert w. induction acts as [|a acts IH]; intros w H; cbn [run].
  - destruct H as [H|H]; [apply elem_of_nil in H; destruct H | exact H].
  - apply IH. rewrite perform_isLoading.
    destruct H as [H|H].
    + apply elem_of_cons in H. destruct H as [<-|H]; [right; reflexivity|].
      destruct a; auto.
    + destruct a; auto.
Qed.

Lemma isLoading_stays_down_witness :
  isLoading (run sample_platform [Restore; Login "alice@x.com" "secret1"; Logout]
               (install [true] [AuthResolved "tok-1" alice] [])) = false.
Proof.
  apply (isLoading_stays_down sample_platform
           [Restore; Login "alice@x.com" "secret1"; Logout]
           (install [true] [AuthResolved "tok-1" alice] [])).
  left. apply elem_of_cons. left. reflexivity.
Defined.

Lemma is_Some_iff_both {A B} (x : A) (y : B) : is_Some (Some x) <-> is_Some (Some y).
Proof. split; intros _; eauto. Qed.

Lemma is_Some_iff_none {A B} : is_Some (@None A) <-> is_Some (@None B).
Proof. split; intros [x H]; discriminate. Qed.

Lemma replies_parse_tail P r rest :
  (forall t u, AuthResolved t u ∈ r :: rest -> is_Some (JSON_parse P (JSON_stringify P u))) ->
  forall t u, AuthResolved t u ∈ rest -> is_Some (JSON_parse P (JSON_stringify P u)).
Proof. intros H t u Hin. apply (H t u). apply elem_of_cons. right. exact Hin. Qed.

Lemma loadStoredAuth_coherent P w :
  coherent w -> record_parses P w -> replies_parse P w ->
  coherent (snd (loadStoredAuth P w)) /\
  record_parses P (snd (loadStoredAuth P w)) /\
  replies_parse P (snd (loadStoredAuth P w)).
Proof.
  unfold coherent, record_parses, replies_parse.
  load_cases P w; intros Hc Hr Hp; (split; [|split; try assumption]);
    try assumption; try apply is_Some_iff_both;
    try (intros s' Hs'; apply Hr; congruence);
    destruct (Hr _ eq_refl) as [x Hx]; congruence.
Qed.

Lemma auth_call_coherent P (op : M unit) w :
  (exists l p, op = login P l p) \/ (exists d, op = register P d) ->
  coherent w -> record_parses P w -> replies_parse P w ->
  coherent (snd (op w)) /\
  record_parses P (snd (op w)) /\
  replies_parse P (snd (op w)).
Proof.
  unfold coherent, record_parses, replies_parse.
  intros [(l & p & ->) | (d & ->)]; step_world w;
    (destruct w_ps as [|[t u|e] rest]; fault_cases; crunch; intros Hc Hr Hp;
     (split; [|split]); try assumption; try apply is_Some_iff_both;
     try (eapply replies_parse_tail; eassumption);
     intros s' Hs'; rewrite ?lookup_insert_eq, ?lookup_insert_ne in Hs' by discriminate;
     first [ apply Hr; exact Hs'
           | injection Hs' as <-; apply (Hp t u); apply elem_of_cons; left; reflexivity ]).
Qed.

Lemma logout_coherent P w :
  coherent w -> record_parses P w -> replies_parse P w ->
  coherent (snd (logout w)) /\
  record_parses P (snd (logout w)) /\
  replies_parse P (snd (logout w)).
Proof.
  unfold coherent, record_parses, replies_parse.
  step_world w. fault_cases; crunch; intros Hc Hr Hp;
    (split; [|split]); try assumption; try apply is_Some_iff_none;
    intros s' Hs'; rewrite ?lookup_delete_eq, ?lookup_delete_ne in Hs' by discriminate;
    first [ discriminate Hs' | apply Hr; exact Hs' ].
Qed.

Lemma dashboard_coherent P a w :
  a = TokenEffect \/ a = PullToRefresh ->
  coherent w -> record_parses P w -> replies_parse P w ->
  coherent (snd (perform P a w)) /\
  record_parses P (snd (perform P a w)) /\
  replies_parse P (snd (perform P a w)).
Proof.
  unfold coherent, record_parses, replies_parse.
  intros [-> | ->]; cbn [perform]; step_world w.
  - destruct w_tok as [[|c t]|]; destruct w_gs as [|[s|e] rest]; crunch; auto.
  - destruct w_ld; destruct w_gs as [|[s|e] rest]; crunch; auto.
Qed.

Lemma perform_coherent P a w :
  coherent w -> record_parses P w -> replies_parse P w ->
  coherent (snd (perform P a w)) /\
  record_parses P (snd (perform P a w)) /\
  replies_parse P (snd (perform P a w)).
Proof.
  destruct a; cbn [perform].
  - apply loadStoredAuth_coherent.
  - apply auth_call_coherent. left. eauto.
  - apply auth_call_coherent. right. eauto.
  - apply logout_coherent.
  - apply (dashboard_coherent P TokenEffect). auto.
  - apply (dashboard_coherent P PullToRefresh). auto.
Qed.

(** X7. The in-memory session is never half set.  From a state in which the
    token and the user are both set or both null, the stored identity record
    (if any) parses and the records the backend will send survive the JSON
    round trip, every run keeps the token and the user both set or both null,
    whatever secure-storage calls throw on the way. *)
Theorem session_never_half_set P acts w :
  coherent w -> record_parses P w -> replies_parse P w ->
  coherent (run P acts w).
Proof.
  revert w. induction acts as [|a acts IH]; intros w Hc Hr Hp; cbn [run].
  - exact Hc.
  - destruct (perform_coherent P a w Hc Hr Hp) as (Hc' & Hr' & Hp').
    apply IH; assumption.
Qed.


Lemma session_never_half_set_witness :
  coherent (run sample_platform
              [Restore; Login "alice@x.com" "secret1"; Register sample_registration; Restore]
              (install [false; false; false; false; true]
                       [AuthResolved "tok-1" alice; AuthResolved "tok-2" bob] [])).
Proof.
  apply (session_never_half_set sample_platform
           [Restore; Login "alice@x.com" "secret1"; Register sample_registration; Restore]
           (install [false; false; false; false; true]
                    [AuthResolved "tok-1" alice; AuthResolved "tok-2" bob] [])).
  - apply is_Some_iff_none.
  - intros s Hs. cbn in Hs. rewrite lookup_empty in Hs. discriminate Hs.
  - intros t u Hin. cbn in Hin.
    apply elem_of_cons in Hin. destruct Hin as [Hin|Hin].
    + injection Hin as -> ->. exists alice. vm_compute. reflexivity.
    + apply elem_of_cons in Hin. destruct Hin as [Hin|Hin].
      * injection Hin as -> ->. exists bob. vm_compute. reflexivity.
      * apply elem_of_nil in Hin. destruct Hin.
Defined.

Lemma login_calm P l p w access_token userData rest :
  posts w = AuthResolved access_token userData :: rest ->
  calm 2 w ->
  login P l p w =
    (Return tt,
     mkWorld (<["user_data" := JSON_stringify P userData]> (<["auth_token" := access_token]> (store w)))
             (drop 2 (faults w)) rest (gets w) (Some userData) (Some access_token)
             (isLoading w) (stats w) (refreshing w) (loading w)
             (trace w ++ adopted_trace P (HttpPost (API_URL P ++ "/auth/login") (LoginBody l p))
                           access_token userData)).
Proof.
  unfold calm, adopted_trace. step_world w. intros ->.
  fault_cases; crunch; flat_trace; intros Hc; rewrite ?drop_0; first [reflexivity | mem].
Qed.

Lemma register_calm P d w access_token userData rest :
  posts w = AuthResolved access_token userData :: rest ->
  calm 2 w ->
  register P d w =
    (Return tt,
     mkWorld (<["user_data" := JSON_stringify P userData]> (<["auth_token" := access_token]> (store w)))
             (drop 2 (faults w)) rest (gets w) (Some userData) (Some access_token)
             (isLoading w) (stats w) (refreshing w) (loading w)
             (trace w ++ adopted_trace P (HttpPost (API_URL P ++ "/auth/register") (RegisterBody d))
                           access_token userData)).
Proof.
  unfold calm, adopted_trace. step_world w. intros ->.
  fault_cases; crunch; flat_trace; intros Hc; rewrite ?drop_0; first [reflexivity | mem].
Qed.

Lemma calm_drop n m w fs :
  calm (n + m) w -> fs = drop n (faults w) -> true ∉ take m fs.
Proof.
  unfold calm. intros Hc -> Hin. apply Hc.
  rewrite <- (take_take_drop (faults w) n m). apply elem_of_app. right. exact Hin.
Qed.

Lemma restore_after_write P w0 w access_token userData :
  store w = <["user_data" := JSON_stringify P userData]> (<["auth_token" := access_token]> (store w0)) ->
  calm 2 w ->
  access_token <> "" ->
  JSON_stringify P userData <> "" ->
  JSON_parse P (JSON_stringify P userData) = Some userData ->
  token (snd (loadStoredAuth P w)) = Some access_token /\
  user (snd (loadStoredAuth P w)) = Some userData.
Proof.
  intros Hs Hc Ht Hj Hp.
  apply (loadStoredAuth_adopts P w access_token (JSON_stringify P userData) userData);
    try assumption; rewrite Hs.
  - rewrite lookup_insert_ne by discriminate. apply lookup_insert_eq.
  - apply lookup_insert_eq.
Qed.

(** X8. A session survives a restart.  After a login or register call that
    goes through with a non-empty token, and when the identity record
    serializes to a non-empty text that parses back to itself, restarting the
    app and restoring (with readable storage) brings back the same token and
    the same user. *)
Theorem session_survives_restart P l p d w access_token userData rest :
  posts w = AuthResolved access_token userData :: rest ->
  calm 4 w ->
  access_token <> "" ->
  JSON_stringify P userData <> "" ->
  JSON_parse P (JSON_stringify P userData) = Some userData ->
  (token (snd (loadStoredAuth P (restart (snd (login P l p w))))) = Some access_token /\
   user (snd (loadStoredAuth P (restart (snd (login P l p w))))) = Some userData) /\
  (token (snd (loadStoredAuth P (restart (snd (register P d w))))) = Some access_token /\
   user (snd (loadStoredAuth P (restart (snd (register P d w))))) = Some userData).
Proof.
  intros Hp Hc Ht Hj Hr.
  pose proof (calm_le 2 4 w ltac:(lia) Hc) as Hc2.
  rewrite (login_calm P l p w _ _ _ Hp Hc2), (register_calm P d w _ _ _ Hp Hc2).
  cbn [snd].
  split; apply (restore_after_write P w); try assumption; try reflexivity;
    unfold calm, restart; cbn [faults]; eapply (calm_drop 2 2 w); eauto.
Qed.

Lemma session_survives_restart_witness :
  token (snd (loadStoredAuth sample_platform
           (restart (snd (login sample_platform "alice@x.com" "secret1"
                           (install [] [AuthResolved "tok-1" alice] []))))))
    = Some "tok-1" /\
  user (snd (loadStoredAuth sample_platform
          (restart (snd (login sample_platform "alice@x.com" "secret1"
                          (install [] [AuthResolved "tok-1" alice] []))))))
    = Some alice.
Proof.
  apply (session_survives_restart sample_platform "alice@x.com" "secret1" sample_registration
           (install [] [AuthResolved "tok-1" alice] []) "tok-1" alice []).
  - reflexivity.
  - apply calm_nil. reflexivity.
  - discriminate.
  - vm_compute. discriminate.
  - vm_compute. reflexivity.
Defined.

Lemma delete_both_after_insert_both (st : gmap string string) t r :
  st !! "auth_token" = None -> st !! "user_data" = None ->
  delete "user_data" (delete "auth_token" (<["user_data" := r]> (<["auth_token" := t]> st))) = st.
Proof.
  intros Ha Hu. apply map_eq. intros k.
  destruct (decide (k = "user_data")) as [->|Hk1].
  - rewrite lookup_delete_eq. symmetry. exact Hu.
  - rewrite lookup_delete_ne by congruence.
    destruct (decide (k = "auth_token")) as [->|Hk2].
    + rewrite lookup_delete_eq. symmetry. exact Ha.
    + rewrite lookup_delete_ne, !lookup_insert_ne by congruence. reflexivity.
Qed.

(** X9. Logging out undoes logging in.  On a store that holds neither entry,
    a login or register call that goes through followed by a logout whose
    deletions go through leaves the secure store exactly as it was, and the
    token and the user null. *)
Theorem logout_undoes_login P l p d w access_token userData rest :
  posts w = AuthResolved access_token userData :: rest ->
  calm 4 w ->
  store w !! "auth_token" = None ->
  store w !! "user_data" = None ->
  store (snd (logout (snd (login P l p w)))) = store w /\
  store (snd (logout (snd (register P d w)))) = store w /\
  token (snd (logout (snd (login P l p w)))) = None /\
  user (snd (logout (snd (login P l p w)))) = None /\
  token (snd (logout (snd (register P d w)))) = None /\
  user (snd (logout (snd (register P d w)))) = None.
Proof.
  intros Hp Hc Ha Hu.
  pose proof (calm_le 2 4 w ltac:(lia) Hc) as Hc2.
  rewrite (login_calm P l p w _ _ _ Hp Hc2), (register_calm P d w _ _ _ Hp Hc2).
  cbn [snd].
  rewrite !logout_calm by (unfold calm; cbn [faults]; eapply (calm_drop 2 2 w); eauto).
  cbn [snd store token user].
  rewrite delete_both_after_insert_both by assumption. auto 10.
Qed.

Lemma logout_undoes_login_witness :
  store (snd (logout (snd (login sample_platform "alice@x.com" "secret1"
                             (install [] [AuthResolved "tok-1" alice] [])))))
    = store (install [] [AuthResolved "tok-1" alice] []).
Proof.
  destruct (logout_undoes_login sample_platform "alice@x.com" "secret1" sample_registration
              (install [] [AuthResolved "tok-1" alice] []) "tok-1" alice [])
    as (Hs & _).
  - reflexivity.
  - apply calm_nil. reflexivity.
  - apply lookup_empty.
  - apply lookup_empty.
  - exact Hs.
Defined.

(** X10. The dashboard follows the login.  After a login or register call
    that goes through with a non-empty token, the effect of the dashboard
    issues exactly one statistics request, and its header is [Bearer]
    followed by the token the backend has just issued. *)
Theorem dashboard_fetches_with_fresh_token P l p d w access_token userData rest :
  posts w = AuthResolved access_token userData :: rest ->
  calm 2 w ->
  access_token <> "" ->
  http (since (snd (login P l p w)) (snd (tokenEffect P (snd (login P l p w)))))
    = [HttpGet (API_URL P ++ "/dashboard/stats") ("Bearer " ++ access_token)] /\
  http (since (snd (register P d w)) (snd (tokenEffect P (snd (register P d w)))))
    = [HttpGet (API_URL P ++ "/dashboard/stats") ("Bearer " ++ access_token)].
Proof.
  intros Hp Hc Ht.
  rewrite !tokenEffect_requests.
  rewrite (login_calm P l p w _ _ _ Hp Hc), (register_calm P d w _ _ _ Hp Hc).
  cbn [snd token]. destruct access_token as [|c t]; [congruence|].
  cbn [truthy String.eqb negb]. rewrite !fetchStats_one_request.
  unfold stats_request. cbn [token interpolate]. auto.
Qed.

Lemma dashboard_fetches_with_fresh_token_witness :
  http (since (snd (login sample_platform "alice@x.com" "secret1"
                      (install [] [AuthResolved "tok-1" alice] [])))
          (snd (tokenEffect sample_platform
                  (snd (login sample_platform "alice@x.com" "secret1"
                          (install [] [AuthResolved "tok-1" alice] []))))))
    = [HttpGet (API_URL sample_platform ++ "/dashboard/stats") ("Bearer " ++ "tok-1")].
Proof.
  destruct (dashboard_fetches_with_fresh_token sample_platform "alice@x.com" "secret1"
              sample_registration (install [] [AuthResolved "tok-1" alice] [])
              "tok-1" alice []) as [H _].
  - reflexivity.
  - apply calm_nil. reflexivity.
  - discriminate.
  - exact H.
Defined.

Lemma tokenless_step P a w :
  tokenless a -> loading w = true -> blank (token w) ->
  loading (snd (perform P a w)) = true /\
  blank (token (snd (perform P a w))) /\
  exists evs, trace (snd (perform P a w)) = (trace w ++ evs)%list /\ http evs = [].
Proof.
  unfold blank.
  intros [-> | [-> | ->]] Hl Hb; cbn [perform]; step_world w; subst w_ld.
  - fault_cases; crunch; flat_trace; (split; [reflexivity|]); (split; [auto|]);
      eexists; (split; [reflexivity|]); reflexivity.
  - destruct Hb as [-> | ->]; crunch; (split; [reflexivity|]); (split; [auto|]);
      exists []; rewrite app_nil_r; auto.
  - crunch. split; [reflexivity|]. split; [exact Hb|]. exists []. rewrite app_nil_r. auto.
Qed.

(** X11. Without a token the dashboard never leaves its spinner.  While the
    screen is loading and the token is absent or empty, no sequence of
    dashboard effects, refresh gestures and logouts issues an HTTP request or
    ends the loading state: the screen keeps rendering the spinner. *)
Theorem dashboard_waits_for_a_token P acts w :
  Forall tokenless acts ->
  loading w = true ->
  blank (token w) ->
  DashboardScreen_render (run P acts w) = LoadingView /\
  http (since w (run P acts w)) = [].
Proof.
  intros Hacts Hl Hb.
  assert (H : loading (run P acts w) = true /\
              exists evs, trace (run P acts w) = (trace w ++ evs)%list /\ http evs = []).
  { revert w Hl Hb. induction Hacts as [|a acts Ha _ IH]; intros w Hl Hb; cbn [run].
    - split; [exact Hl|]. exists []. rewrite app_nil_r. auto.
    - destruct (tokenless_step P a w Ha Hl Hb) as (Hl' & Hb' & evs & Htr & Hh).
      destruct (IH _ Hl' Hb') as (Hl'' & evs' & Htr' & Hh').
      split; [exact Hl''|]. exists (evs ++ evs')%list. split.
      + rewrite Htr', Htr, app_assoc. reflexivity.
      + rewrite http_app, Hh, Hh'. reflexivity. }
  destruct H as (Hl' & evs & Htr & Hh). split.
  - unfold DashboardScreen_render. rewrite Hl'. reflexivity.
  - rewrite (since_app _ _ _ Htr). exact Hh.
Qed.

Lemma dashboard_waits_for_a_token_witness :
  DashboardScreen_render
    (run sample_platform [TokenEffect; PullToRefresh; Logout; TokenEffect]
       (install [] [] [StatsResolved sample_stats])) = LoadingView.
Proof.
  apply (dashboard_waits_for_a_token sample_platform
           [TokenEffect; PullToRefresh; Logout; TokenEffect]
           (install [] [] [StatsResolved sample_stats])).
  - repeat (apply Forall_cons; split; [unfold tokenless; auto|]). apply Forall_nil. exact I.
  - reflexivity.
  - left. reflexivity.
Defined.
